(** * recaptcha-v3-verify: a shallow embedding of [src/index.ts]

    The repository exports one asynchronous function, [assessRecaptchaToken],
    which posts a reCAPTCHA Enterprise token to Google's assessment endpoint
    and folds every outcome of that round trip into one returned value.

    The embedding follows the TypeScript text:
    - a JavaScript string is its sequence of UTF-16 code units;
    - a JavaScript number is an IEEE-754 binary64 value (Rocq's primitive
      [float]);
    - the values the function builds or receives from [JSON.parse] are the
      JSON-representable values [JsValue];
    - [throw] / [try ... catch] are explicit: a computation ends in a
      [Completion], either [Normal] or [Throw];
    - the runtime ([fetch], [Response.text], [JSON.parse]) is a [Platform]
      the function is run against, and every call into it is recorded in a
      call log that is threaded through the computation. *)

From Stdlib Require Import List NArith Bool String Ascii PrimFloat Lia.
Import ListNotations.

Set Warnings "-register-all".

(** ** JavaScript strings and numbers *)

Module Js.

(** One UTF-16 code unit, a number in [0, 65535]. *)
Definition CodeUnit := N.

Definition JsString := list CodeUnit.

Definition number := float.

(** A source-text literal: ASCII characters become their code units. *)
Fixpoint lit (s : string) : JsString :=
  match s with
  | EmptyString => []
  | String c s' => N_of_ascii c :: lit s'
  end.

Fixpoint str_eqb (a b : JsString) : bool :=
  match a, b with
  | [], [] => true
  | x :: a', y :: b' => N.eqb x y && str_eqb a' b'
  | _, _ => false
  end.

(** A text between two quotation marks (code unit 34). *)
Definition quoted (s : JsString) : JsString := [34%N] ++ s ++ [34%N].

(** ToBoolean on a string: only the empty string is falsy. *)
Definition truthy (s : JsString) : bool :=
  match s with
  | [] => false
  | _ :: _ => true
  end.

(** The JSON-representable values.  An object keeps its own enumerable
    properties in enumeration order. *)
Inductive JsValue : Type :=
| JNull
| JBool (b : bool)
| JNumber (n : number)
| JString (s : JsString)
| JArray (items : list JsValue)
| JObject (props : list (JsString * JsValue)).

(** What a [throw] carries.  [ErrorObject] is a value for which
    [err instanceof Error] holds (an [Error] of any subclass, [name] tells
    which) with its [message]; [ThrownValue] is any other value. *)
Inductive JsThrown : Type :=
| ErrorObject (name message : JsString)
| ThrownValue (v : JsValue).

(** How an evaluation ends. *)
Inductive Completion (A : Type) : Type :=
| Normal (a : A)
| Throw (e : JsThrown).

Arguments Normal {A} a.
Arguments Throw {A} e.

(** Property lookup on an object (the keys of an object are distinct). *)
Fixpoint get (k : JsString) (props : list (JsString * JsValue)) : option JsValue :=
  match props with
  | [] => None
  | (k', v) :: rest => if str_eqb k k' then Some v else get k rest
  end.

End Js.

Import Js.

(** ** JSON.stringify (ECMA-262, 25.5.2), without replacer or indentation *)

Module JSON.

Definition hex_digit (d : N) : CodeUnit :=
  if (d <? 10)%N then (48 + d)%N else (87 + d)%N.

(** UnicodeEscape: a backslash, [u], and four lower-case hex digits. *)
Definition UnicodeEscape (c : CodeUnit) : JsString :=
  [92; 117;
   hex_digit ((c / 4096) mod 16); hex_digit ((c / 256) mod 16);
   hex_digit ((c / 16) mod 16); hex_digit (c mod 16)]%N.

Definition is_leading_surrogate (c : CodeUnit) : bool :=
  ((55296 <=? c) && (c <=? 56319))%N.

Definition is_trailing_surrogate (c : CodeUnit) : bool :=
  ((56320 <=? c) && (c <=? 57343))%N.

(** One code unit that is not half of a surrogate pair. *)
Definition quote_unit (c : CodeUnit) : JsString :=
  if (c =? 8)%N then lit "\b"
  else if (c =? 9)%N then lit "\t"
  else if (c =? 10)%N then lit "\n"
  else if (c =? 12)%N then lit "\f"
  else if (c =? 13)%N then lit "\r"
  else if (c =? 34)%N then [92; 34]%N
  else if (c =? 92)%N then [92; 92]%N
  else if (c <? 32)%N || is_leading_surrogate c || is_trailing_surrogate c
       then UnicodeEscape c
  else [c].

(** The characters of QuoteJSONString between the two quotation marks.  A
    leading surrogate followed by a trailing one is a single code point and
    is copied; a surrogate on its own is escaped. *)
Fixpoint quote_units (s : JsString) : JsString :=
  match s with
  | [] => []
  | c :: rest =>
      match rest with
      | d :: rest' =>
          if is_leading_surrogate c && is_trailing_surrogate d
          then c :: d :: quote_units rest'
          else quote_unit c ++ quote_units rest
      | [] => quote_unit c
      end
  end.

Definition QuoteJSONString (s : JsString) : JsString :=
  quoted (quote_units s).

(** Elements joined by commas. *)
Fixpoint join_comma (parts : list JsString) : JsString :=
  match parts with
  | [] => []
  | [p] => p
  | p :: rest => p ++ [44%N] ++ join_comma rest
  end.

Section Stringify.

(** Number::toString of the runtime, used for finite numbers only. *)
Variable Number_toString : number -> JsString.

(** SerializeJSONProperty, with SerializeJSONArray and
    SerializeJSONObject inlined. *)
Fixpoint stringify (v : JsValue) : JsString :=
  match v with
  | JNull => lit "null"
  | JBool true => lit "true"
  | JBool false => lit "false"
  | JNumber n =>
      if PrimFloat.is_finite n then Number_toString n else lit "null"
  | JString s => QuoteJSONString s
  | JArray items =>
      lit "[" ++ join_comma (map stringify items) ++ lit "]"
  | JObject props =>
      lit "{"
      ++ join_comma
           (map (fun kv => QuoteJSONString (fst kv) ++ lit ":" ++ stringify (snd kv))
                props)
      ++ lit "}"
  end.

End Stringify.

End JSON.

(** ** The runtime the function is run against *)

Module Runtime.

(** The second argument of [fetch]. *)
Record RequestInit : Type := {
  method : JsString;
  headers : list (JsString * JsString);
  body : JsString;
}.

(** What the function observes of a [Response]: the status line, and what
    reading the body as text settles to. *)
Record Response : Type := {
  status : number;
  statusText : JsString;
  text : Completion JsString;
}.

(** The [ok] getter of the Fetch standard: the status is in 200..299. *)
Definition ok (res : Response) : bool :=
  ((200 <=? status res) && (status res <=? 299))%float.

(** One call into the runtime. *)
Inductive Call : Type :=
| CallFetch (url : JsString) (init : RequestInit)
| CallText (res : Response)
| CallParse (source : JsString).

(** The calls made so far, the most recent first. *)
Definition Log := list Call.

(** [fetch] may answer differently from one call to the next: it sees the
    calls made before it.  [JSON.parse] and [Number::toString] are functions
    of their argument. *)
Record Platform : Type := {
  fetch : Log -> JsString -> RequestInit -> Completion Response;
  JSON_parse : JsString -> Completion JsValue;
  Number_toString : number -> JsString;
}.

Definition JSON_stringify (P : Platform) (v : JsValue) : JsString :=
  JSON.stringify (Number_toString P) v.

(** An asynchronous computation: it extends the call log and completes. *)
Definition Async (A : Type) : Type := Log -> Log * Completion A.

Definition ret {A} (a : A) : Async A := fun log => (log, Normal a).

Definition bind {A B} (m : Async A) (k : A -> Async B) : Async B :=
  fun log =>
    match m log with
    | (log', Normal a) => k a log'
    | (log', Throw e) => (log', Throw e)
    end.

(** [try { m } catch (err) { handler err }] *)
Definition try_catch {A} (m : Async A) (handler : JsThrown -> Async A) : Async A :=
  fun log =>
    match m log with
    | (log', Normal a) => (log', Normal a)
    | (log', Throw e) => handler e log'
    end.

(** [await fetch(url, init)] *)
Definition await_fetch (P : Platform) (url : JsString) (init : RequestInit)
  : Async Response :=
  fun log => (CallFetch url init :: log, fetch P log url init).

(** [await res.text()] *)
Definition await_text (res : Response) : Async JsString :=
  fun log => (CallText res :: log, text res).

(** [JSON.parse(source)] *)
Definition call_JSON_parse (P : Platform) (source : JsString) : Async JsValue :=
  fun log => (CallParse source :: log, JSON_parse P source).

End Runtime.

Import Runtime.

Declare Scope async_scope.
Delimit Scope async_scope with async.
Notation "'let!' x ':=' m 'in' k" := (bind m (fun x => k))
  (at level 10, x name, m at level 100, k at level 200) : async_scope.

(** ** [src/index.ts] *)

(** The destructured parameter of [assessRecaptchaToken]. *)
Record Options : Type := {
  token : JsString;
  siteKey : JsString;
  expectedAction : JsString;
  api_token : JsString;
  projectId : JsString;
}.

(** The object literal [{ error: { code, message } }]. *)
Definition error_response (code : number) (message : JsString) : JsValue :=
  JObject [(lit "error",
            JObject [(lit "code", JNumber code);
                     (lit "message", JString message)])].

Arguments error_response code%_float message.

(** The template literal passed to [fetch] as the address. *)
Definition assessment_url (o : Options) : JsString :=
  lit "https://recaptchaenterprise.googleapis.com/v1/projects/"
  ++ projectId o ++ lit "/assessments?key=" ++ api_token o.

(** The object literal handed to [JSON.stringify]. *)
Definition assessment_payload (o : Options) : JsValue :=
  JObject [(lit "event",
            JObject [(lit "token", JString (token o));
                     (lit "siteKey", JString (siteKey o));
                     (lit "expectedAction", JString (expectedAction o))])].

Definition assessment_init (P : Platform) (o : Options) : RequestInit :=
  {| method := lit "POST";
     headers := [(lit "Content-Type", lit "application/json")];
     body := JSON_stringify P (assessment_payload o) |}.

Definition assessRecaptchaToken (P : Platform) (o : Options) : Async JsValue :=
  try_catch
    (let! res := await_fetch P (assessment_url o) (assessment_init P o) in
     if negb (ok res) then
       ret (error_response (status res) (lit "HTTP error: " ++ statusText res))
     else
       let! text := await_text res in
       if negb (truthy text) then
         ret (error_response 500 (lit "Empty response from reCAPTCHA API"))
       else
         try_catch
           (call_JSON_parse P text)
           (fun _ =>
              ret (error_response 500
                     (lit "Invalid JSON response from reCAPTCHA API"))))%async
    (fun err =>
       ret (error_response 500
              match err with
              | ErrorObject _ message => message
              | ThrownValue _ => lit "Failed to assess recaptcha token"
              end)).

(** ** The declared type [RecaptchaAssessmentResponse]

    TypeScript types are erased; the declaration is kept here as a
    structural check on values, used only to describe shapes. *)

Module Shape.

Definition is_boolean (v : JsValue) : bool :=
  match v with JBool _ => true | _ => false end.

Definition is_number (v : JsValue) : bool :=
  match v with JNumber _ => true | _ => false end.

Definition is_string (v : JsValue) : bool :=
  match v with JString _ => true | _ => false end.

Definition is_string_array (v : JsValue) : bool :=
  match v with JArray items => forallb is_string items | _ => false end.

(** A property declared [name: T]. *)
Definition required (check : JsValue -> bool) (p : option JsValue) : bool :=
  match p with Some v => check v | None => false end.

(** A property declared [name?: T]. *)
Definition optional (check : JsValue -> bool) (p : option JsValue) : bool :=
  match p with Some v => check v | None => true end.

Definition object_with (fields : list (JsString * JsValue) -> bool) (v : JsValue) : bool :=
  match v with JObject props => fields props | _ => false end.

Definition tokenProperties_type : JsValue -> bool :=
  object_with (fun p =>
    required is_boolean (get (lit "valid") p)
    && optional is_string (get (lit "action") p)
    && optional is_string (get (lit "createTime") p)).

Definition riskAnalysis_type : JsValue -> bool :=
  object_with (fun p =>
    required is_number (get (lit "score") p)
    && optional is_string_array (get (lit "reasons") p)).

Definition event_type : JsValue -> bool :=
  object_with (fun p =>
    required is_string (get (lit "token") p)
    && required is_string (get (lit "siteKey") p)
    && required is_string (get (lit "expectedAction") p)).

Definition error_type : JsValue -> bool :=
  object_with (fun p =>
    required is_number (get (lit "code") p)
    && required is_string (get (lit "message") p)).

Definition RecaptchaAssessmentResponse : JsValue -> bool :=
  object_with (fun p =>
    optional tokenProperties_type (get (lit "tokenProperties") p)
    && optional riskAnalysis_type (get (lit "riskAnalysis") p)
    && optional event_type (get (lit "event") p)
    && optional error_type (get (lit "error") p)).

(** The success shape: a response without the [error] member. *)
Definition success_shape (v : JsValue) : bool :=
  RecaptchaAssessmentResponse v
  && object_with (fun p => match get (lit "error") p with
                           | None => true
                           | Some _ => false
                           end) v.

(** The error shape: exactly [{ error: { code, message } }]. *)
Definition error_shape (v : JsValue) : bool :=
  match v with
  | JObject [(k, JObject [(k1, JNumber _); (k2, JString _)])] =>
      str_eqb k (lit "error") && str_eqb k1 (lit "code")
      && str_eqb k2 (lit "message")
  | _ => false
  end.

Definition error_code (v : JsValue) : option number :=
  match v with
  | JObject props =>
      match get (lit "error") props with
      | Some (JObject e) =>
          match get (lit "code") e with
          | Some (JNumber n) => Some n
          | _ => None
          end
      | _ => None
      end
  | _ => None
  end.

Definition error_message (v : JsValue) : option JsString :=
  match v with
  | JObject props =>
      match get (lit "error") props with
      | Some (JObject e) =>
          match get (lit "message") e with
          | Some (JString s) => Some s
          | _ => None
          end
      | _ => None
      end
  | _ => None
  end.

End Shape.

(** ** Reading the call log *)

Module Trace.

(** The outbound requests in a log, the most recent first. *)
Fixpoint requests (log : Log) : list (JsString * RequestInit) :=
  match log with
  | [] => []
  | CallFetch url init :: rest => (url, init) :: requests rest
  | _ :: rest => requests rest
  end.

(** The number of outbound network calls in a log. *)
Definition fetch_count (log : Log) : nat := List.length (requests log).

(** The bodies put on the wire. *)
Definition bodies (log : Log) : list JsString :=
  map (fun r => body (snd r)) (requests log).

(** The number of times a response body was read. *)
Fixpoint text_count (log : Log) : nat :=
  match log with
  | [] => 0
  | CallText _ :: rest => S (text_count rest)
  | _ :: rest => text_count rest
  end.

(** The number of calls of [JSON.parse]. *)
Fixpoint parse_count (log : Log) : nat :=
  match log with
  | [] => 0
  | CallParse _ :: rest => S (parse_count rest)
  | _ :: rest => parse_count rest
  end.

End Trace.

(** ** Test doubles for the runtime *)

Module Mock.

Definition opts : Options :=
  {| token := lit "tok1";
     siteKey := lit "site1";
     expectedAction := lit "login";
     api_token := lit "key1";
     projectId := lit "proj1" |}.

(** The same request made with another credential and project. *)
Definition opts' : Options :=
  {| token := lit "tok1";
     siteKey := lit "site1";
     expectedAction := lit "login";
     api_token := lit "key2";
     projectId := lit "proj2" |}.

Definition assessment_text : JsString :=
  lit "{" ++ quoted (lit "tokenProperties") ++ lit ":{"
  ++ quoted (lit "valid") ++ lit ":true,"
  ++ quoted (lit "action") ++ lit ":" ++ quoted (lit "login")
  ++ lit "}," ++ quoted (lit "riskAnalysis") ++ lit ":{"
  ++ quoted (lit "score") ++ lit ":0.5}}".

Definition assessment : JsValue :=
  JObject [(lit "tokenProperties",
            JObject [(lit "valid", JBool true); (lit "action", JString (lit "login"))]);
           (lit "riskAnalysis", JObject [(lit "score", JNumber 0.5%float)])].

(** A [JSON.parse] that knows one document and rejects every other text. *)
Definition parse (source : JsString) : Completion JsValue :=
  if str_eqb source assessment_text then Normal assessment
  else Throw (ErrorObject (lit "SyntaxError") (lit "Unexpected token in JSON")).

(** A number printer that knows the numbers used here. *)
Definition number_toString (n : number) : JsString :=
  if (n =? 0.5)%float then lit "0.5" else lit "0".

(** A transport that answers every request in the same way. *)
Definition answering (outcome : Completion Response) : Platform :=
  {| fetch := fun _ _ _ => outcome;
     JSON_parse := parse;
     Number_toString := number_toString |}.

Definition response (code : number) (reason : JsString) (content : Completion JsString)
  : Response :=
  {| status := code; statusText := reason; text := content |}.

Arguments response code%_float reason content.

Definition ok_assessment : Platform :=
  answering (Normal (response 200 (lit "OK") (Normal assessment_text))).

Definition forbidden : Platform :=
  answering (Normal (response 403 (lit "Forbidden") (Normal (lit "denied")))).

Definition empty_body : Platform :=
  answering (Normal (response 200 (lit "OK") (Normal []))).

Definition not_json : Platform :=
  answering (Normal (response 200 (lit "OK") (Normal (lit "not-json{")))).

Definition unreachable : Platform :=
  answering (Throw (ErrorObject (lit "TypeError") (lit "fetch failed"))).

(** A transport failing with [new Error()], whose message is empty. *)
Definition silent_failure : Platform :=
  answering (Throw (ErrorObject (lit "Error") [])).

(** A transport that fails on the first call made to it and answers
    afterwards. *)
Definition flaky : Platform :=
  {| fetch := fun log _ _ =>
       match Trace.requests log with
       | [] => Throw (ErrorObject (lit "TypeError") (lit "fetch failed"))
       | _ :: _ => Normal (response 200 (lit "OK") (Normal assessment_text))
       end;
     JSON_parse := parse;
     Number_toString := number_toString |}.

End Mock.

(** A transport is deterministic when its answer to a request does not
    depend on the calls made before. *)
Definition deterministic (P : Platform) : Prop :=
  forall (log1 log2 : Log) (url : JsString) (init : RequestInit),
    fetch P log1 url init = fetch P log2 url init.

(** A code unit that QuoteJSONString copies unchanged. *)
Definition plain (c : CodeUnit) : bool :=
  ((32 <=? c) && negb (c =? 34) && negb (c =? 92)
   && negb (JSON.is_leading_surrogate c) && negb (JSON.is_trailing_surrogate c))%N.

(** The message the outer handler reports for a caught value. *)
Definition caught_message (err : JsThrown) : JsString :=
  match err with
  | ErrorObject _ message => message
  | ThrownValue _ => lit "Failed to assess recaptcha token"
  end.

(** The transport raises [e]: [fetch] rejects, or the response arrives with
    a success status and reading its body rejects. *)
Definition transport_throws (P : Platform) (o : Options) (log : Log) (e : JsThrown)
  : Prop :=
  fetch P log (assessment_url o) (assessment_init P o) = Throw e
  \/ exists res : Response,
       fetch P log (assessment_url o) (assessment_init P o) = Normal res
       /\ ok res = true
       /\ text res = Throw e.

(** ** Reading a JSON string literal back (ECMA-404, section 9)

    The inverse of QuoteJSONString, as the receiving side of the request
    applies it: used to state that what is written can be read back. *)

Module JSONRead.

(** The value of a hexadecimal digit, in either case. *)
Definition hex_value (c : CodeUnit) : option N :=
  if ((48 <=? c) && (c <=? 57))%N then Some (c - 48)%N
  else if ((97 <=? c) && (c <=? 102))%N then Some (c - 87)%N
  else if ((65 <=? c) && (c <=? 70))%N then Some (c - 55)%N
  else None.

(** The code unit written as four hexadecimal digits. *)
Definition hex4 (a b c d : CodeUnit) : option CodeUnit :=
  match hex_value a, hex_value b, hex_value c, hex_value d with
  | Some x, Some y, Some z, Some w => Some (((x * 16 + y) * 16 + z) * 16 + w)%N
  | _, _, _, _ => None
  end.

(** The code unit a two-character escape stands for. *)
Definition simple_escape (e : CodeUnit) : option CodeUnit :=
  if (e =? 34)%N then Some 34%N
  else if (e =? 92)%N then Some 92%N
  else if (e =? 47)%N then Some 47%N
  else if (e =? 98)%N then Some 8%N
  else if (e =? 102)%N then Some 12%N
  else if (e =? 110)%N then Some 10%N
  else if (e =? 114)%N then Some 13%N
  else if (e =? 116)%N then Some 9%N
  else None.

Definition prepend (c : CodeUnit) (r : option (JsString * JsString))
  : option (JsString * JsString) :=
  match r with
  | Some (s, rest) => Some (c :: s, rest)
  | None => None
  end.

(** The characters of a string literal after its opening quotation mark:
    the string they denote, and what follows the closing quotation mark.
    A control character, an unknown escape or a missing closing mark is an
    error. *)
Fixpoint read_units (s : JsString) : option (JsString * JsString) :=
  match s with
  | [] => None
  | c :: rest =>
      if (c =? 34)%N then Some ([], rest)
      else if (c =? 92)%N then
        match rest with
        | [] => None
        | e :: rest1 =>
            if (e =? 117)%N then
              match rest1 with
              | h1 :: h2 :: h3 :: h4 :: rest2 =>
                  match hex4 h1 h2 h3 h4 with
                  | Some u => prepend u (read_units rest2)
                  | None => None
                  end
              | _ => None
              end
            else
              match simple_escape e with
              | Some u => prepend u (read_units rest1)
              | None => None
              end
        end
      else if (c <? 32)%N then None
      else prepend c (read_units rest)
  end.

(** A string literal at the head of a text. *)
Definition read_string (s : JsString) : option (JsString * JsString) :=
  match s with
  | c :: rest => if (c =? 34)%N then read_units rest else None
  | [] => None
  end.

(** The text after a known prefix. *)
Fixpoint skip (prefix s : JsString) : option JsString :=
  match prefix with
  | [] => Some s
  | p :: prefix' =>
      match s with
      | c :: s' => if (p =? c)%N then skip prefix' s' else None
      | [] => None
      end
  end.

(** The three strings of a text laid out as
    [{"event":{"token":...,"siteKey":...,"expectedAction":...}}]. *)
Definition read_event (s : JsString) : option (JsString * JsString * JsString) :=
  match skip (lit "{" ++ quoted (lit "event") ++ lit ":{"
              ++ quoted (lit "token") ++ lit ":") s with
  | None => None
  | Some s1 =>
      match read_string s1 with
      | None => None
      | Some (tok, s2) =>
          match skip (lit "," ++ quoted (lit "siteKey") ++ lit ":") s2 with
          | None => None
          | Some s3 =>
              match read_string s3 with
              | None => None
              | Some (site, s4) =>
                  match skip (lit "," ++ quoted (lit "expectedAction") ++ lit ":") s4 with
                  | None => None
                  | Some s5 =>
                      match read_string s5 with
                      | None => None
                      | Some (action, s6) =>
                          match skip (lit "}}") s6 with
                          | Some [] => Some (tok, site, action)
                          | _ => None
                          end
                      end
                  end
              end
          end
      end
  end.

End JSONRead.

(** ** Texts that survive the wire *)

Module Wire.

(** Well-formed UTF-16: every surrogate is half of a pair.  Such a text is
    encoded to UTF-8 without any replacement character. *)
Fixpoint well_formed (s : JsString) : bool :=
  match s with
  | [] => true
  | c :: rest =>
      if JSON.is_leading_surrogate c then
        match rest with
        | d :: rest' => JSON.is_trailing_surrogate d && well_formed rest'
        | [] => false
        end
      else negb (JSON.is_trailing_surrogate c) && well_formed rest
  end.

(** No control character (a code unit below 32). *)
Definition no_control (s : JsString) : bool :=
  forallb (fun c => (32 <=? c)%N) s.

(** No solidus (code unit 47). *)
Definition no_slash (s : JsString) : bool :=
  forallb (fun c => negb (c =? 47)%N) s.

End Wire.

(** Two requests whose project and credential differ and whose addresses
    are the same text: the project of the second holds a solidus. *)
Module Crafted.

Definition plain_project : Options :=
  {| token := lit "tok1";
     siteKey := lit "site1";
     expectedAction := lit "login";
     api_token := lit "b/assessments?key=c";
     projectId := lit "a" |}.

Definition slashed_project : Options :=
  {| token := lit "tok1";
     siteKey := lit "site1";
     expectedAction := lit "login";
     api_token := lit "c";
     projectId := lit "a/assessments?key=b" |}.

(** The request of [Mock.opts] for another token. *)
Definition other_token : Options :=
  {| token := lit "tok2";
     siteKey := lit "site1";
     expectedAction := lit "login";
     api_token := lit "key1";
     projectId := lit "proj1" |}.

End Crafted.

(** The status test behind [ok], on a number. *)
Definition success_status (n : number) : bool :=
  ((200 <=? n) && (n <=? 299))%float.

(** ** The documented use of the result

    The guard of the [@example] in [src/index.ts],

      [result.tokenProperties?.valid && (result.riskAnalysis?.score ?? 0) >= 0.5]

    and the one of the README,

      [response.tokenProperties?.valid && response.riskAnalysis?.score >= 0.5],

    both as the condition of an [if].  A value that may be [undefined] is an
    [option JsValue], [None] being [undefined]. *)

Module Usage.

(** [base.name], for the names read here: none of them is defined on a
    built-in prototype, so only an object's own properties can answer. *)
Definition member (name : JsString) (base : JsValue) : Completion (option JsValue) :=
  match base with
  | JNull =>
      Throw (ErrorObject (lit "TypeError")
               (lit "Cannot read properties of null (reading '" ++ name ++ lit "')"))
  | JObject props => Normal (get name props)
  | _ => Normal None
  end.

(** [base?.name]: [undefined] when [base] is [null] or [undefined]. *)
Definition optional_member (name : JsString) (base : option JsValue) : option JsValue :=
  match base with
  | Some (JObject props) => get name props
  | _ => None
  end.

Definition ToBoolean (v : option JsValue) : bool :=
  match v with
  | None => false
  | Some JNull => false
  | Some (JBool b) => b
  | Some (JNumber n) => negb (PrimFloat.is_zero n || PrimFloat.is_nan n)
  | Some (JString s) => truthy s
  | Some (JArray _) => true
  | Some (JObject _) => true
  end.

(** [v ?? d] *)
Definition nullish_default (v : option JsValue) (d : JsValue) : option JsValue :=
  match v with
  | None => Some d
  | Some JNull => Some d
  | Some w => Some w
  end.

Section Guards.

(** ToNumber of the runtime on strings, arrays and objects. *)
Variable ToNumber_other : JsValue -> number.

Definition ToNumber (v : option JsValue) : number :=
  match v with
  | None => PrimFloat.nan
  | Some JNull => 0%float
  | Some (JBool true) => 1%float
  | Some (JBool false) => 0%float
  | Some (JNumber n) => n
  | Some w => ToNumber_other w
  end.

(** [v >= 0.5]: false when [v] converts to NaN. *)
Definition at_least_half (v : option JsValue) : bool :=
  (0.5 <=? ToNumber v)%float.

(** The condition of the [@example]. *)
Definition example_guard (result : JsValue) : Completion bool :=
  match member (lit "tokenProperties") result with
  | Throw e => Throw e
  | Normal tokenProperties =>
      if ToBoolean (optional_member (lit "valid") tokenProperties) then
        match member (lit "riskAnalysis") result with
        | Throw e => Throw e
        | Normal riskAnalysis =>
            Normal (at_least_half
                      (nullish_default (optional_member (lit "score") riskAnalysis)
                                       (JNumber 0%float)))
        end
      else Normal false
  end.

(** The condition of the README. *)
Definition readme_guard (response : JsValue) : Completion bool :=
  match member (lit "tokenProperties") response with
  | Throw e => Throw e
  | Normal tokenProperties =>
      if ToBoolean (optional_member (lit "valid") tokenProperties) then
        match member (lit "riskAnalysis") response with
        | Throw e => Throw e
        | Normal riskAnalysis =>
            Normal (at_least_half (optional_member (lit "score") riskAnalysis))
        end
      else Normal false
  end.

End Guards.

End Usage.

(** * Properties *)

(** ** The serializer *)

Lemma quote_unit_plain (c : CodeUnit) :
  plain c = true -> JSON.quote_unit c = [c].
Proof.
  unfold plain, JSON.quote_unit. intro H.
  repeat (apply andb_prop in H; destruct H as [H ?]).
  apply N.leb_le in H.
  repeat match goal with
         | E : negb _ = true |- _ => apply negb_true_iff in E
         end.
  repeat match goal with
         | |- context [(c =? ?k)%N] =>
             let E := fresh "E" in
             destruct (N.eqb_spec c k) as [E|E];
             [ try (subst c; discriminate); try lia | ]
         end.
  destruct (N.ltb_spec c 32); [lia|].
  simpl. rewrite H1, H0. reflexivity.
Qed.

Lemma leading_not_plain (c : CodeUnit) :
  plain c = true -> JSON.is_leading_surrogate c = false.
Proof.
  unfold plain. intro H.
  repeat (apply andb_prop in H; destruct H as [H ?]).
  now apply negb_true_iff.
Qed.

(** A string of plain code units is quoted as itself. *)
Lemma quote_units_plain (s : JsString) :
  forallb plain s = true -> JSON.quote_units s = s.
Proof.
  induction s as [|c rest IH]; [reflexivity|].
  intro H. simpl in H. apply andb_prop in H. destruct H as [Hc Hrest].
  specialize (IH Hrest).
  destruct rest as [|d rest'].
  - simpl. now apply quote_unit_plain.
  - change (JSON.quote_units (c :: d :: rest'))
      with (if JSON.is_leading_surrogate c && JSON.is_trailing_surrogate d
            then c :: d :: JSON.quote_units rest'
            else JSON.quote_unit c ++ JSON.quote_units (d :: rest')).
    rewrite (leading_not_plain c Hc). simpl andb. cbv iota.
    rewrite IH, (quote_unit_plain c Hc). reflexivity.
Qed.

(** The text of the request body, whatever the runtime's number printer. *)
Lemma payload_text (P : Platform) (o : Options) :
  JSON_stringify P (assessment_payload o) =
  lit "{" ++ quoted (lit "event") ++ lit ":{"
  ++ quoted (lit "token") ++ lit ":" ++ JSON.QuoteJSONString (token o) ++ lit ","
  ++ quoted (lit "siteKey") ++ lit ":" ++ JSON.QuoteJSONString (siteKey o) ++ lit ","
  ++ quoted (lit "expectedAction") ++ lit ":"
  ++ JSON.QuoteJSONString (expectedAction o) ++ lit "}}".
Proof.
  unfold JSON_stringify, assessment_payload. cbn.
  repeat (rewrite <- ?app_assoc; cbn).
  reflexivity.
Qed.

(** ** The value built on the failure paths *)

(** [{ error: { code, message } }] has the error shape, inhabits the declared
    return type, and gives back its two fields. *)
Lemma error_response_fields (code : number) (message : JsString) :
  Shape.error_shape (error_response code message) = true
  /\ Shape.RecaptchaAssessmentResponse (error_response code message) = true
  /\ Shape.error_code (error_response code message) = Some code
  /\ Shape.error_message (error_response code message) = Some message.
Proof.
  repeat split.
Qed.

(** ** One invocation, path by path *)

Section Paths.

Variable P : Platform.
Variable o : Options.
Variable log : Log.

Let sent : Log := CallFetch (assessment_url o) (assessment_init P o) :: log.

Lemma fetch_throws (e : JsThrown) :
  fetch P log (assessment_url o) (assessment_init P o) = Throw e ->
  assessRecaptchaToken P o log
  = (sent, Normal (error_response 500 (caught_message e))).
Proof.
  intro H. unfold assessRecaptchaToken, try_catch, bind, await_fetch.
  rewrite H. destruct e; reflexivity.
Qed.

Lemma status_not_ok (res : Response) :
  fetch P log (assessment_url o) (assessment_init P o) = Normal res ->
  ok res = false ->
  assessRecaptchaToken P o log
  = (sent,
     Normal (error_response (status res) (lit "HTTP error: " ++ statusText res))).
Proof.
  intros H Hok. unfold assessRecaptchaToken, try_catch, bind, await_fetch.
  rewrite H, Hok. reflexivity.
Qed.

Lemma text_throws (res : Response) (e : JsThrown) :
  fetch P log (assessment_url o) (assessment_init P o) = Normal res ->
  ok res = true ->
  text res = Throw e ->
  assessRecaptchaToken P o log
  = (CallText res :: sent, Normal (error_response 500 (caught_message e))).
Proof.
  intros H Hok Ht.
  unfold assessRecaptchaToken, try_catch, bind, await_fetch, await_text.
  rewrite H, Hok. simpl. rewrite Ht. destruct e; reflexivity.
Qed.

Lemma text_empty (res : Response) :
  fetch P log (assessment_url o) (assessment_init P o) = Normal res ->
  ok res = true ->
  text res = Normal [] ->
  assessRecaptchaToken P o log
  = (CallText res :: sent,
     Normal (error_response 500 (lit "Empty response from reCAPTCHA API"))).
Proof.
  intros H Hok Ht.
  unfold assessRecaptchaToken, try_catch, bind, await_fetch, await_text.
  rewrite H, Hok. simpl. rewrite Ht. reflexivity.
Qed.

Lemma parse_throws (res : Response) (source : JsString) (e : JsThrown) :
  fetch P log (assessment_url o) (assessment_init P o) = Normal res ->
  ok res = true ->
  text res = Normal source ->
  source <> [] ->
  JSON_parse P source = Throw e ->
  assessRecaptchaToken P o log
  = (CallParse source :: CallText res :: sent,
     Normal (error_response 500 (lit "Invalid JSON response from reCAPTCHA API"))).
Proof.
  intros H Hok Ht Hne Hp.
  unfold assessRecaptchaToken, try_catch, bind, await_fetch, await_text,
    call_JSON_parse.
  rewrite H, Hok. simpl. rewrite Ht.
  destruct source as [|c source']; [contradiction|].
  simpl. rewrite Hp. reflexivity.
Qed.

Lemma parse_returns (res : Response) (source : JsString) (v : JsValue) :
  fetch P log (assessment_url o) (assessment_init P o) = Normal res ->
  ok res = true ->
  text res = Normal source ->
  source <> [] ->
  JSON_parse P source = Normal v ->
  assessRecaptchaToken P o log
  = (CallParse source :: CallText res :: sent, Normal v).
Proof.
  intros H Hok Ht Hne Hp.
  unfold assessRecaptchaToken, try_catch, bind, await_fetch, await_text,
    call_JSON_parse.
  rewrite H, Hok. simpl. rewrite Ht.
  destruct source as [|c source']; [contradiction|].
  simpl. rewrite Hp. reflexivity.
Qed.

(** The paths are exhaustive: the log grows by the request and at most a
    body read and a parse, and the invocation completes normally. *)
Lemma assess_paths :
  exists (later : Log) (v : JsValue),
    assessRecaptchaToken P o log = (later ++ sent, Normal v)
    /\ Trace.requests later = []
    /\ (Shape.error_shape v = true
        \/ exists res source,
             fetch P log (assessment_url o) (assessment_init P o) = Normal res
             /\ ok res = true
             /\ text res = Normal source
             /\ source <> []
             /\ JSON_parse P source = Normal v).
Proof.
  destruct (fetch P log (assessment_url o) (assessment_init P o))
    as [res|e] eqn:Hf.
  - destruct (ok res) eqn:Hok.
    + destruct (text res) as [source|e] eqn:Ht.
      * destruct source as [|c source'].
        -- exists [CallText res]. eexists. split; [|split].
           ++ now apply text_empty.
           ++ reflexivity.
           ++ left. reflexivity.
        -- destruct (JSON_parse P (c :: source')) as [v|e] eqn:Hp.
           ++ exists [CallParse (c :: source'); CallText res], v.
              split; [|split].
              ** now apply parse_returns.
              ** reflexivity.
              ** right. exists res, (c :: source'). now repeat split.
           ++ exists [CallParse (c :: source'); CallText res]. eexists.
              split; [|split].
              ** now apply parse_throws with (e := e).
              ** reflexivity.
              ** left. reflexivity.
      * exists [CallText res]. eexists. split; [|split].
        -- apply text_throws with (e := e); assumption.
        -- reflexivity.
        -- left. reflexivity.
    + exists []. eexists. split; [|split].
      * apply status_not_ok with (res := res); assumption.
      * reflexivity.
      * left. reflexivity.
  - exists []. eexists. split; [|split].
    + apply fetch_throws with (e := e); assumption.
    + reflexivity.
    + left. reflexivity.
Qed.

End Paths.

Lemma requests_app (l1 l2 : Log) :
  Trace.requests (l1 ++ l2) = Trace.requests l1 ++ Trace.requests l2.
Proof.
  induction l1 as [|c l1 IH]; [reflexivity|].
  destruct c; simpl; now rewrite IH.
Qed.

(** The requests in the log after one invocation. *)
Lemma requests_after (P : Platform) (o : Options) (log : Log) :
  Trace.requests (fst (assessRecaptchaToken P o log))
  = (assessment_url o, assessment_init P o) :: Trace.requests log.
Proof.
  destruct (assess_paths P o log) as (later & v & Hrun & Hlater & _).
  rewrite Hrun. simpl fst. rewrite requests_app, Hlater. reflexivity.
Qed.

(** ** The contract of [assessRecaptchaToken] *)

(** C1. Whatever the request and whatever the runtime does, the invocation
    completes normally with a value.  That value has the error shape
    [{ error: { code, message } }] on every path but one: the response had a
    success status, its body was read as a non-empty text, and [JSON.parse]
    returned the value. *)
Theorem assessRecaptchaToken_never_throws (P : Platform) (o : Options) (log : Log) :
  exists (log' : Log) (v : JsValue),
    assessRecaptchaToken P o log = (log', Normal v)
    /\ (Shape.error_shape v = true
        \/ exists (res : Response) (source : JsString),
             fetch P log (assessment_url o) (assessment_init P o) = Normal res
             /\ ok res = true
             /\ text res = Normal source
             /\ source <> []
             /\ JSON_parse P source = Normal v).
Proof.
  destruct (assess_paths P o log) as (later & v & Hrun & _ & Hv).
  exists (later ++ CallFetch (assessment_url o) (assessment_init P o) :: log), v.
  split; assumption.
Qed.

(** C2. When the response has status 200 and a non-empty body that
    [JSON.parse] accepts, the invocation returns the parsed value itself,
    whatever that value is. *)
Theorem success_returns_parsed_body
  (P : Platform) (o : Options) (log : Log)
  (res : Response) (source : JsString) (v : JsValue) :
  fetch P log (assessment_url o) (assessment_init P o) = Normal res ->
  status res = 200%float ->
  text res = Normal source ->
  source <> [] ->
  JSON_parse P source = Normal v ->
  snd (assessRecaptchaToken P o log) = Normal v.
Proof.
  intros Hf Hs Ht Hne Hp.
  assert (Hok : ok res = true) by (unfold ok; rewrite Hs; reflexivity).
  rewrite (parse_returns P o log res source v Hf Hok Ht Hne Hp). reflexivity.
Qed.

Lemma success_returns_parsed_body_witness :
  Shape.success_shape Mock.assessment = true
  /\ snd (assessRecaptchaToken Mock.ok_assessment Mock.opts []) = Normal Mock.assessment.
Proof.
  split; [reflexivity|].
  apply (success_returns_parsed_body Mock.ok_assessment Mock.opts []
           (Mock.response 200 (lit "OK") (Normal Mock.assessment_text))
           Mock.assessment_text Mock.assessment).
  - reflexivity.
  - reflexivity.
  - reflexivity.
  - discriminate.
  - reflexivity.
Defined.

(** C3. When the response has a status outside 200..299, the invocation
    returns the error shape whose code is that status and whose message is
    ["HTTP error: "] followed by the status text; the only call made is the
    request: the body is neither read nor parsed. *)
Theorem non_success_status_reported
  (P : Platform) (o : Options) (log : Log) (res : Response) :
  fetch P log (assessment_url o) (assessment_init P o) = Normal res ->
  ok res = false ->
  snd (assessRecaptchaToken P o log)
  = Normal (error_response (status res) (lit "HTTP error: " ++ statusText res))
  /\ fst (assessRecaptchaToken P o log)
     = CallFetch (assessment_url o) (assessment_init P o) :: log
  /\ Trace.text_count (fst (assessRecaptchaToken P o log)) = Trace.text_count log
  /\ Trace.parse_count (fst (assessRecaptchaToken P o log)) = Trace.parse_count log.
Proof.
  intros Hf Hok. rewrite (status_not_ok P o log res Hf Hok).
  repeat split.
Qed.

Lemma non_success_status_reported_witness :
  snd (assessRecaptchaToken Mock.forbidden Mock.opts [])
  = Normal (error_response 403 (lit "HTTP error: Forbidden"))
  /\ Trace.text_count (fst (assessRecaptchaToken Mock.forbidden Mock.opts [])) = 0
  /\ Trace.parse_count (fst (assessRecaptchaToken Mock.forbidden Mock.opts [])) = 0.
Proof.
  destruct (non_success_status_reported Mock.forbidden Mock.opts []
              (Mock.response 403 (lit "Forbidden") (Normal (lit "denied")))
              eq_refl eq_refl) as (Hv & _ & Ht & Hp).
  exact (conj Hv (conj Ht Hp)).
Defined.

(** C4, as the code has it.  When the transport raises [e], the invocation
    returns the error shape with code 500.  Its message is the message of
    [e] when [e] is an [Error], and the fixed text "Failed to assess
    recaptcha token" when it is any other value; so the message is empty
    exactly when [e] is an [Error] with an empty message. *)
Theorem transport_exception_reported
  (P : Platform) (o : Options) (log : Log) (e : JsThrown) :
  transport_throws P o log e ->
  exists message : JsString,
    snd (assessRecaptchaToken P o log) = Normal (error_response 500 message)
    /\ (forall name m, e = ErrorObject name m -> message = m)
    /\ (forall w, e = ThrownValue w ->
        message = lit "Failed to assess recaptcha token")
    /\ (message = [] <-> exists name, e = ErrorObject name []).
Proof.
  intro H. exists (caught_message e). split; [|split; [|split]].
  - destruct H as [Hf | (res & Hf & Hok & Ht)].
    + rewrite (fetch_throws P o log e Hf). reflexivity.
    + rewrite (text_throws P o log res e Hf Hok Ht). reflexivity.
  - intros name m ->. reflexivity.
  - intros w ->. reflexivity.
  - destruct e as [name m | w]; simpl; split.
    + intros ->. now exists name.
    + intros (name' & E). now inversion E.
    + discriminate.
    + intros (name' & E). discriminate E.
Qed.

Lemma transport_exception_reported_witness :
  exists message : JsString,
    snd (assessRecaptchaToken Mock.unreachable Mock.opts [])
    = Normal (error_response 500 message)
    /\ message = lit "fetch failed".
Proof.
  destruct (transport_exception_reported Mock.unreachable Mock.opts []
              (ErrorObject (lit "TypeError") (lit "fetch failed"))
              (or_introl eq_refl)) as (message & Hv & Hm & _).
  exists message. split; [exact Hv|].
  exact (Hm (lit "TypeError") (lit "fetch failed") eq_refl).
Defined.

(** C4, read as "the message is never empty", fails: a transport that raises
    [new Error()], whose message is the empty string, is answered with the
    error shape of code 500 and an empty message. *)
Lemma transport_exception_empty_message :
  transport_throws Mock.silent_failure Mock.opts [] (ErrorObject (lit "Error") [])
  /\ snd (assessRecaptchaToken Mock.silent_failure Mock.opts [])
     = Normal (error_response 500 [])
  /\ Shape.error_message (error_response 500 []) = Some [].
Proof.
  split; [left; reflexivity|]. split; reflexivity.
Qed.

(** C5. When the response has a success status and its body reads as the
    empty text, the invocation returns the error shape with code 500 and the
    message "Empty response from reCAPTCHA API"; nothing is parsed. *)
Theorem empty_body_reported
  (P : Platform) (o : Options) (log : Log) (res : Response) :
  fetch P log (assessment_url o) (assessment_init P o) = Normal res ->
  ok res = true ->
  text res = Normal [] ->
  snd (assessRecaptchaToken P o log)
  = Normal (error_response 500 (lit "Empty response from reCAPTCHA API"))
  /\ Trace.parse_count (fst (assessRecaptchaToken P o log)) = Trace.parse_count log.
Proof.
  intros Hf Hok Ht. rewrite (text_empty P o log res Hf Hok Ht).
  split; reflexivity.
Qed.

Lemma empty_body_reported_witness :
  snd (assessRecaptchaToken Mock.empty_body Mock.opts [])
  = Normal (error_response 500 (lit "Empty response from reCAPTCHA API")).
Proof.
  apply (empty_body_reported Mock.empty_body Mock.opts []
           (Mock.response 200 (lit "OK") (Normal []))
           eq_refl eq_refl eq_refl).
Defined.

(** C6. When the response has a success status and a non-empty body that
    [JSON.parse] rejects, the invocation returns the error shape with code
    500 and the message "Invalid JSON response from reCAPTCHA API". *)
Theorem invalid_json_reported
  (P : Platform) (o : Options) (log : Log)
  (res : Response) (source : JsString) (e : JsThrown) :
  fetch P log (assessment_url o) (assessment_init P o) = Normal res ->
  ok res = true ->
  text res = Normal source ->
  source <> [] ->
  JSON_parse P source = Throw e ->
  snd (assessRecaptchaToken P o log)
  = Normal (error_response 500 (lit "Invalid JSON response from reCAPTCHA API")).
Proof.
  intros Hf Hok Ht Hne Hp.
  rewrite (parse_throws P o log res source e Hf Hok Ht Hne Hp). reflexivity.
Qed.

Lemma invalid_json_reported_witness :
  JSON_parse Mock.not_json (lit "not-json{")
  = Throw (ErrorObject (lit "SyntaxError") (lit "Unexpected token in JSON"))
  /\ snd (assessRecaptchaToken Mock.not_json Mock.opts [])
     = Normal (error_response 500 (lit "Invalid JSON response from reCAPTCHA API")).
Proof.
  split; [reflexivity|].
  apply (invalid_json_reported Mock.not_json Mock.opts []
           (Mock.response 200 (lit "OK") (Normal (lit "not-json{")))
           (lit "not-json{")
           (ErrorObject (lit "SyntaxError") (lit "Unexpected token in JSON"))).
  - reflexivity.
  - reflexivity.
  - reflexivity.
  - discriminate.
  - reflexivity.
Defined.

(** C7. The invocation adds one request to those already in the log.  Its
    address is the fixed prefix, [projectId], ["/assessments?key="] and
    [api_token]; its method is POST; its headers are the single pair
    Content-Type: application/json; its body is [JSON.stringify] of
    [{ event: { token, siteKey, expectedAction } }], which is the text
    spelled out in the last conjunct. *)
Theorem outbound_request (P : Platform) (o : Options) (log : Log) :
  exists (url : JsString) (init : RequestInit),
    Trace.requests (fst (assessRecaptchaToken P o log))
    = (url, init) :: Trace.requests log
    /\ url = lit "https://recaptchaenterprise.googleapis.com/v1/projects/"
             ++ projectId o ++ lit "/assessments?key=" ++ api_token o
    /\ method init = lit "POST"
    /\ headers init = [(lit "Content-Type", lit "application/json")]
    /\ body init
       = JSON_stringify P
           (JObject [(lit "event",
                      JObject [(lit "token", JString (token o));
                               (lit "siteKey", JString (siteKey o));
                               (lit "expectedAction", JString (expectedAction o))])])
    /\ body init
       = lit "{" ++ quoted (lit "event") ++ lit ":{"
         ++ quoted (lit "token") ++ lit ":"
         ++ JSON.QuoteJSONString (token o) ++ lit ","
         ++ quoted (lit "siteKey") ++ lit ":"
         ++ JSON.QuoteJSONString (siteKey o) ++ lit ","
         ++ quoted (lit "expectedAction") ++ lit ":"
         ++ JSON.QuoteJSONString (expectedAction o) ++ lit "}}".
Proof.
  exists (assessment_url o), (assessment_init P o).
  split; [apply requests_after|].
  repeat split. apply payload_text.
Qed.

(** C8. One invocation makes exactly one outbound call, on every path: the
    log holds one request more than before. *)
Theorem exactly_one_fetch (P : Platform) (o : Options) (log : Log) :
  Trace.fetch_count (fst (assessRecaptchaToken P o log))
  = S (Trace.fetch_count log).
Proof.
  unfold Trace.fetch_count. rewrite requests_after. reflexivity.
Qed.

(** C9. Against a deterministic transport, two invocations with the same
    five fields return the same result, whatever calls were made before
    each of them; in particular when the second is made after the first. *)
Theorem same_inputs_same_result
  (P : Platform) (o1 o2 : Options) (log1 log2 : Log) :
  deterministic P ->
  token o1 = token o2 ->
  siteKey o1 = siteKey o2 ->
  expectedAction o1 = expectedAction o2 ->
  api_token o1 = api_token o2 ->
  projectId o1 = projectId o2 ->
  snd (assessRecaptchaToken P o1 log1) = snd (assessRecaptchaToken P o2 log2).
Proof.
  intros Hdet Ht Hs He Ha Hp.
  assert (o2 = o1) as ->.
  { destruct o1, o2; simpl in *; congruence. }
  unfold assessRecaptchaToken, try_catch, bind, await_fetch.
  rewrite (Hdet log2 log1).
  destruct (fetch P log1 (assessment_url o1) (assessment_init P o1)) as [res|e];
    [|reflexivity].
  destruct (negb (ok res)); [reflexivity|].
  unfold await_text. destruct (text res) as [source|e]; [|reflexivity].
  destruct (negb (truthy source)); [reflexivity|].
  unfold call_JSON_parse. destruct (JSON_parse P source); reflexivity.
Qed.

Lemma same_inputs_same_result_witness :
  deterministic Mock.ok_assessment
  /\ snd (assessRecaptchaToken Mock.ok_assessment Mock.opts [])
     = snd (assessRecaptchaToken Mock.ok_assessment Mock.opts
              (fst (assessRecaptchaToken Mock.ok_assessment Mock.opts []))).
Proof.
  assert (Hdet : deterministic Mock.ok_assessment) by (intros ? ? ? ?; reflexivity).
  split; [exact Hdet|].
  apply (same_inputs_same_result Mock.ok_assessment Mock.opts Mock.opts
           [] (fst (assessRecaptchaToken Mock.ok_assessment Mock.opts []))
           Hdet eq_refl eq_refl eq_refl eq_refl eq_refl).
Defined.

(** C10. Two requests with the same [token], [siteKey] and [expectedAction]
    put the same bodies on the wire, whatever their [api_token] and
    [projectId] and whatever runtime each is run against. *)
Theorem body_ignores_credentials
  (P1 P2 : Platform) (o1 o2 : Options) (log : Log) :
  token o1 = token o2 ->
  siteKey o1 = siteKey o2 ->
  expectedAction o1 = expectedAction o2 ->
  Trace.bodies (fst (assessRecaptchaToken P1 o1 log))
  = Trace.bodies (fst (assessRecaptchaToken P2 o2 log)).
Proof.
  intros Ht Hs He. unfold Trace.bodies.
  rewrite !requests_after. cbn [map snd]. f_equal.
  unfold assessment_init. cbn [body].
  rewrite !payload_text, Ht, Hs, He. reflexivity.
Qed.

Lemma body_ignores_credentials_witness :
  api_token Mock.opts <> api_token Mock.opts'
  /\ projectId Mock.opts <> projectId Mock.opts'
  /\ Trace.bodies (fst (assessRecaptchaToken Mock.ok_assessment Mock.opts []))
     = Trace.bodies (fst (assessRecaptchaToken Mock.forbidden Mock.opts' [])).
Proof.
  split; [discriminate|]. split; [discriminate|].
  apply (body_ignores_credentials Mock.ok_assessment Mock.forbidden
           Mock.opts Mock.opts' [] eq_refl eq_refl eq_refl).
Defined.

(** ** Worked examples *)

(** The scenario of the specification: a valid token scored by the remote
    service comes back as the parsed document, without an [error] member. *)
Example scenario_valid_token :
  assessRecaptchaToken Mock.ok_assessment Mock.opts []
  = ([CallParse Mock.assessment_text;
      CallText (Mock.response 200 (lit "OK") (Normal Mock.assessment_text));
      CallFetch
        (lit "https://recaptchaenterprise.googleapis.com/v1/projects/proj1/assessments?key=key1")
        {| method := lit "POST";
           headers := [(lit "Content-Type", lit "application/json")];
           body := lit "{" ++ quoted (lit "event") ++ lit ":{"
                   ++ quoted (lit "token") ++ lit ":" ++ quoted (lit "tok1") ++ lit ","
                   ++ quoted (lit "siteKey") ++ lit ":" ++ quoted (lit "site1") ++ lit ","
                   ++ quoted (lit "expectedAction") ++ lit ":" ++ quoted (lit "login")
                   ++ lit "}}" |}],
     Normal Mock.assessment)
  /\ Shape.error_code Mock.assessment = None.
Proof.
  split; reflexivity.
Qed.

(** A transport that would answer a second call is not asked again: the
    failure of the first call is what the invocation returns.  The next
    invocation gets the answer, so without determinism two invocations with
    the same fields may differ. *)
Example flaky_transport_is_asked_once :
  snd (assessRecaptchaToken Mock.flaky Mock.opts [])
  = Normal (error_response 500 (lit "fetch failed"))
  /\ Trace.fetch_count (fst (assessRecaptchaToken Mock.flaky Mock.opts [])) = 1
  /\ snd (assessRecaptchaToken Mock.flaky Mock.opts
            (fst (assessRecaptchaToken Mock.flaky Mock.opts [])))
     = Normal Mock.assessment.
Proof.
  repeat split.
Qed.

(** A value thrown that is not an [Error] gets the fixed message. *)
Example thrown_string_gets_fallback :
  snd (assessRecaptchaToken
         (Mock.answering (Throw (ThrownValue (JString (lit "boom")))))
         Mock.opts [])
  = Normal (error_response 500 (lit "Failed to assess recaptcha token")).
Proof.
  reflexivity.
Qed.

(** A response of status 204 is a success: its empty body is reported with
    code 500, not 204. *)
Example no_content_is_reported_as_500 :
  snd (assessRecaptchaToken
         (Mock.answering (Normal (Mock.response 204 (lit "No Content") (Normal []))))
         Mock.opts [])
  = Normal (error_response 500 (lit "Empty response from reCAPTCHA API")).
Proof.
  reflexivity.
Qed.

(** Quoting: a quotation mark, a line feed, a lone surrogate and a surrogate
    pair. *)
Example quote_escapes :
  JSON.QuoteJSONString [97; 34; 10; 55357; 98; 55357; 56832]%N
  = quoted (lit "a\" ++ [34%N] ++ lit "\n\ud83db" ++ [55357; 56832]%N).
Proof.
  reflexivity.
Qed.

(** The tokens of the examples are made of plain code units, so they appear
    in the body as they are. *)
Example plain_token_is_copied :
  JSON.QuoteJSONString (token Mock.opts) = quoted (token Mock.opts).
Proof.
  unfold JSON.QuoteJSONString. now rewrite quote_units_plain.
Qed.

(** * Further properties *)

(** ** What is written can be read back *)

Lemma hex_value_digit (d : N) :
  (d < 16)%N -> JSONRead.hex_value (JSON.hex_digit d) = Some d.
Proof.
  intro H. unfold JSON.hex_digit, JSONRead.hex_value.
  destruct (N.ltb_spec d 10).
  - replace ((48 <=? 48 + d) && (48 + d <=? 57))%N with true.
    + f_equal. lia.
    + symmetry. apply andb_true_iff. split; apply N.leb_le; lia.
  - replace ((48 <=? 87 + d) && (87 + d <=? 57))%N with false.
    + replace ((97 <=? 87 + d) && (87 + d <=? 102))%N with true.
      * f_equal. lia.
      * symmetry. apply andb_true_iff. split; apply N.leb_le; lia.
    + symmetry. apply andb_false_iff. right. apply N.leb_gt. lia.
Qed.

Lemma hex4_UnicodeEscape (c : CodeUnit) :
  (c < 65536)%N ->
  exists h1 h2 h3 h4,
    JSON.UnicodeEscape c = [92; 117; h1; h2; h3; h4]%N
    /\ JSONRead.hex4 h1 h2 h3 h4 = Some c.
Proof.
  intro H. unfold JSON.UnicodeEscape.
  do 4 eexists. split; [reflexivity|].
  unfold JSONRead.hex4.
  rewrite !hex_value_digit by (apply N.mod_lt; discriminate).
  f_equal.
  assert (c / 4096 < 16)%N by (apply N.Div0.div_lt_upper_bound; lia).
  rewrite (N.mod_small (c / 4096) 16) by assumption.
  pose proof (N.div_mod c 16). pose proof (N.div_mod (c / 16) 16).
  pose proof (N.div_mod (c / 256) 16).
  assert (c / 16 / 16 = c / 256)%N by (rewrite N.Div0.div_div; reflexivity).
  assert (c / 256 / 16 = c / 4096)%N by (rewrite N.Div0.div_div; reflexivity).
  lia.
Qed.

Lemma surrogate_bound (c : CodeUnit) :
  JSON.is_leading_surrogate c || JSON.is_trailing_surrogate c = true ->
  (55296 <= c < 57344)%N.
Proof.
  unfold JSON.is_leading_surrogate, JSON.is_trailing_surrogate. intro H.
  apply orb_true_iff in H.
  destruct H as [H|H]; apply andb_true_iff in H; destruct H as [H1 H2];
    apply N.leb_le in H1; apply N.leb_le in H2; lia.
Qed.

(** One quoted code unit is read back as that code unit. *)
Lemma read_quote_unit (c : CodeUnit) (tail : JsString) :
  JSONRead.read_units (JSON.quote_unit c ++ tail)
  = JSONRead.prepend c (JSONRead.read_units tail).
Proof.
  unfold JSON.quote_unit.
  repeat match goal with
         | |- context [(c =? ?k)%N] =>
             destruct (N.eqb_spec c k) as [->|?]; [reflexivity|]
         end.
  destruct ((c <? 32)%N || JSON.is_leading_surrogate c
            || JSON.is_trailing_surrogate c) eqn:E.
  - assert (Hc : (c < 65536)%N).
    { rewrite <- orb_assoc in E. apply orb_true_iff in E. destruct E as [E|E].
      - apply N.ltb_lt in E. lia.
      - apply surrogate_bound in E. lia. }
    destruct (hex4_UnicodeEscape c Hc) as (h1 & h2 & h3 & h4 & -> & Hh).
    cbn. rewrite Hh. reflexivity.
  - apply orb_false_iff in E. destruct E as [E _].
    apply orb_false_iff in E. destruct E as [E _].
    cbn [app JSONRead.read_units].
    destruct (N.eqb_spec c 34); [contradiction|].
    destruct (N.eqb_spec c 92); [contradiction|].
    rewrite E. reflexivity.
Qed.

(** A code unit of a surrogate pair is copied, and read back as itself. *)
Lemma read_surrogate (c : CodeUnit) (tail : JsString) :
  JSON.is_leading_surrogate c || JSON.is_trailing_surrogate c = true ->
  JSONRead.read_units (c :: tail) = JSONRead.prepend c (JSONRead.read_units tail).
Proof.
  intro H. apply surrogate_bound in H.
  cbn [JSONRead.read_units].
  destruct (N.eqb_spec c 34); [lia|].
  destruct (N.eqb_spec c 92); [lia|].
  destruct (N.ltb_spec c 32); [lia|]. reflexivity.
Qed.

(** The quoted characters of [s], followed by a quotation mark, are read
    back as [s], and the reader stops after that mark. *)
Lemma read_quote_units (s tail : JsString) :
  JSONRead.read_units (JSON.quote_units s ++ 34%N :: tail) = Some (s, tail).
Proof.
  revert tail.
  assert (H : (forall tail, JSONRead.read_units (JSON.quote_units s ++ 34%N :: tail)
                            = Some (s, tail))
              /\ (forall c tail,
                    JSONRead.read_units (JSON.quote_units (c :: s) ++ 34%N :: tail)
                    = Some (c :: s, tail))).
  { induction s as [|d rest' [IH0 IH1]].
    - split; [reflexivity|].
      intros c tail. cbn [JSON.quote_units].
      rewrite read_quote_unit. reflexivity.
    - split; [apply IH1|].
      intros c tail.
      change (JSON.quote_units (c :: d :: rest'))
        with (if JSON.is_leading_surrogate c && JSON.is_trailing_surrogate d
              then c :: d :: JSON.quote_units rest'
              else JSON.quote_unit c ++ JSON.quote_units (d :: rest')).
      destruct (JSON.is_leading_surrogate c && JSON.is_trailing_surrogate d) eqn:E.
      + apply andb_true_iff in E. destruct E as [Ec Ed].
        cbn [app].
        rewrite read_surrogate by (rewrite Ec; reflexivity).
        rewrite read_surrogate by (rewrite Ed; apply orb_true_r).
        rewrite IH0. reflexivity.
      + rewrite <- app_assoc, read_quote_unit, IH1. reflexivity. }
  apply H.
Qed.

Lemma read_QuoteJSONString (s tail : JsString) :
  JSONRead.read_string (JSON.QuoteJSONString s ++ tail) = Some (s, tail).
Proof.
  unfold JSON.QuoteJSONString, quoted. cbn [app JSONRead.read_string N.eqb Pos.eqb].
  rewrite <- app_assoc. apply read_quote_units.
Qed.

(** Two quoted strings followed by texts are equal only if the strings are
    equal and the texts are. *)
Lemma QuoteJSONString_app_inj (s1 s2 tail1 tail2 : JsString) :
  JSON.QuoteJSONString s1 ++ tail1 = JSON.QuoteJSONString s2 ++ tail2 ->
  s1 = s2 /\ tail1 = tail2.
Proof.
  intro H. apply (f_equal JSONRead.read_string) in H.
  rewrite !read_QuoteJSONString in H. now inversion H.
Qed.

(** X1. The body put on the wire determines the three fields it was built
    from: two invocations that send the same body were given the same
    [token], [siteKey] and [expectedAction].  No value of one field can
    pass for other values of the fields. *)
Theorem body_determines_fields
  (P1 P2 : Platform) (o1 o2 : Options) (log : Log) :
  Trace.bodies (fst (assessRecaptchaToken P1 o1 log))
  = Trace.bodies (fst (assessRecaptchaToken P2 o2 log)) ->
  token o1 = token o2
  /\ siteKey o1 = siteKey o2
  /\ expectedAction o1 = expectedAction o2.
Proof.
  unfold Trace.bodies. rewrite !requests_after. cbn [map snd].
  intro H0.
  assert (H := f_equal (hd []) H0). cbn [hd] in H.
  unfold assessment_init in H. cbn [body] in H.
  rewrite !payload_text in H.
  do 5 apply app_inv_head in H.
  apply QuoteJSONString_app_inj in H. destruct H as [Ht H].
  do 3 apply app_inv_head in H.
  apply QuoteJSONString_app_inj in H. destruct H as [Hs H].
  do 3 apply app_inv_head in H.
  apply QuoteJSONString_app_inj in H. destruct H as [He _].
  auto.
Qed.

Lemma body_determines_fields_witness :
  token Mock.opts = token Mock.opts'
  /\ siteKey Mock.opts = siteKey Mock.opts'
  /\ expectedAction Mock.opts = expectedAction Mock.opts'.
Proof.
  apply (body_determines_fields Mock.ok_assessment Mock.forbidden
           Mock.opts Mock.opts' []).
  reflexivity.
Defined.

(** ** The body on the wire *)

Lemma not_leading_step (c : CodeUnit) (rest : JsString) :
  JSON.is_leading_surrogate c = false ->
  Wire.well_formed (c :: rest)
  = negb (JSON.is_trailing_surrogate c) && Wire.well_formed rest.
Proof.
  intro H. cbn [Wire.well_formed]. rewrite H. reflexivity.
Qed.

(** A well-formed text does not change the well-formedness of what
    follows it. *)
Lemma well_formed_app (x y : JsString) :
  Wire.well_formed x = true -> Wire.well_formed (x ++ y) = Wire.well_formed y.
Proof.
  revert y.
  assert (H : (Wire.well_formed x = true ->
               forall y, Wire.well_formed (x ++ y) = Wire.well_formed y)
              /\ (forall c, Wire.well_formed (c :: x) = true ->
                  forall y, Wire.well_formed ((c :: x) ++ y) = Wire.well_formed y)).
  { induction x as [|d x' [IH0 IH1]].
    - split; [reflexivity|].
      intros c H y. cbn [app]. cbn [Wire.well_formed] in H |- *.
      destruct (JSON.is_leading_surrogate c); [discriminate|].
      rewrite andb_true_r in H. rewrite H. reflexivity.
    - split; [apply IH1|].
      intros c H y.
      change ((c :: d :: x') ++ y) with (c :: d :: (x' ++ y)).
      cbn [Wire.well_formed] in H.
      destruct (JSON.is_leading_surrogate c) eqn:Ec.
      + apply andb_true_iff in H. destruct H as [Hd Hx].
        cbn [Wire.well_formed]. rewrite Ec, Hd, (IH0 Hx). reflexivity.
      + apply andb_true_iff in H. destruct H as [Hc Hx].
        rewrite (not_leading_step c (d :: (x' ++ y)) Ec), Hc.
        apply (IH1 d Hx y). }
  intros Hx y. now apply H.
Qed.

(** A text is safe when it is well-formed and free of control characters. *)
Lemma safe_app (x y : JsString) :
  Wire.well_formed x = true /\ Wire.no_control x = true ->
  Wire.well_formed y = true /\ Wire.no_control y = true ->
  Wire.well_formed (x ++ y) = true /\ Wire.no_control (x ++ y) = true.
Proof.
  intros [Hx Cx] [Hy Cy]. split.
  - now rewrite well_formed_app.
  - unfold Wire.no_control in *. rewrite forallb_app.
    apply andb_true_iff. split; assumption.
Qed.

Lemma hex_digit_safe (d : N) (rest : JsString) :
  (d < 16)%N ->
  Wire.well_formed rest = true /\ Wire.no_control rest = true ->
  Wire.well_formed (JSON.hex_digit d :: rest) = true
  /\ Wire.no_control (JSON.hex_digit d :: rest) = true.
Proof.
  intros Hd [Hw Hc].
  assert (B : (48 <= JSON.hex_digit d < 128)%N).
  { unfold JSON.hex_digit. destruct (N.ltb_spec d 10); lia. }
  split.
  - rewrite not_leading_step.
    + rewrite Hw, andb_true_r. apply negb_true_iff.
      unfold JSON.is_trailing_surrogate. apply andb_false_iff. left.
      apply N.leb_gt. lia.
    + unfold JSON.is_leading_surrogate. apply andb_false_iff. left.
      apply N.leb_gt. lia.
  - cbn [Wire.no_control forallb]. fold (Wire.no_control rest). rewrite Hc, andb_true_r.
    apply N.leb_le. lia.
Qed.

Lemma quote_unit_safe (c : CodeUnit) :
  Wire.well_formed (JSON.quote_unit c) = true
  /\ Wire.no_control (JSON.quote_unit c) = true.
Proof.
  unfold JSON.quote_unit.
  repeat match goal with
         | |- context [(c =? ?k)%N] =>
             destruct (N.eqb_spec c k) as [->|?]; [split; reflexivity|]
         end.
  destruct ((c <? 32)%N || JSON.is_leading_surrogate c
            || JSON.is_trailing_surrogate c) eqn:E.
  - unfold JSON.UnicodeEscape.
    apply (safe_app [92; 117]%N); [split; reflexivity|].
    repeat (apply hex_digit_safe; [apply N.mod_lt; discriminate|]).
    split; reflexivity.
  - apply orb_false_iff in E. destruct E as [E Et].
    apply orb_false_iff in E. destruct E as [E El].
    split.
    + rewrite not_leading_step by assumption. rewrite Et. reflexivity.
    + cbn. rewrite andb_true_r. apply N.ltb_ge in E. now apply N.leb_le.
Qed.

Lemma quote_units_safe (s : JsString) :
  Wire.well_formed (JSON.quote_units s) = true
  /\ Wire.no_control (JSON.quote_units s) = true.
Proof.
  assert (H : (Wire.well_formed (JSON.quote_units s) = true
               /\ Wire.no_control (JSON.quote_units s) = true)
              /\ (forall c,
                    Wire.well_formed (JSON.quote_units (c :: s)) = true
                    /\ Wire.no_control (JSON.quote_units (c :: s)) = true)).
  { induction s as [|d rest' [IH0 IH1]].
    - split; [split; reflexivity|].
      intro c. cbn [JSON.quote_units]. apply quote_unit_safe.
    - split; [apply IH1|].
      intro c.
      change (JSON.quote_units (c :: d :: rest'))
        with (if JSON.is_leading_surrogate c && JSON.is_trailing_surrogate d
              then c :: d :: JSON.quote_units rest'
              else JSON.quote_unit c ++ JSON.quote_units (d :: rest')).
      destruct (JSON.is_leading_surrogate c && JSON.is_trailing_surrogate d) eqn:E.
      + apply andb_true_iff in E. destruct E as [Ec Ed].
        destruct IH0 as [Hw Hc]. split.
        * cbn [Wire.well_formed]. rewrite Ec, Ed, Hw. reflexivity.
        * assert (Bc := surrogate_bound c). rewrite Ec in Bc.
          assert (Bd := surrogate_bound d). rewrite Ed, orb_true_r in Bd.
          specialize (Bc eq_refl). specialize (Bd eq_refl).
          cbn [Wire.no_control forallb]. fold (Wire.no_control (JSON.quote_units rest')).
          rewrite Hc.
          replace (32 <=? c)%N with true by (symmetry; apply N.leb_le; lia).
          replace (32 <=? d)%N with true by (symmetry; apply N.leb_le; lia).
          reflexivity.
      + apply safe_app; [apply quote_unit_safe | apply IH1]. }
  apply H.
Qed.

Lemma QuoteJSONString_safe (s : JsString) :
  Wire.well_formed (JSON.QuoteJSONString s) = true
  /\ Wire.no_control (JSON.QuoteJSONString s) = true.
Proof.
  unfold JSON.QuoteJSONString, quoted.
  apply safe_app; [split; reflexivity|].
  apply safe_app; [apply quote_units_safe | split; reflexivity].
Qed.

(** X2. Whatever the three fields hold, lone surrogates and control
    characters included, the body of the request is well-formed UTF-16 and
    holds no control character: it is encoded to UTF-8 without loss and
    stays on one line. *)
Theorem body_survives_the_wire (P : Platform) (o : Options) (log : Log) :
  exists (url : JsString) (init : RequestInit),
    Trace.requests (fst (assessRecaptchaToken P o log))
    = (url, init) :: Trace.requests log
    /\ Wire.well_formed (body init) = true
    /\ Wire.no_control (body init) = true.
Proof.
  exists (assessment_url o), (assessment_init P o).
  split; [apply requests_after|].
  unfold assessment_init. cbn [body]. rewrite payload_text.
  repeat (first [ apply QuoteJSONString_safe
                | apply safe_app; [first [apply QuoteJSONString_safe
                                         | split; reflexivity]|]
                | split; reflexivity ]).
Qed.

(** ** What the result depends on *)

(** X3. The result depends on the request only through the answer of the
    transport: when two invocations, with whatever fields, credentials and
    earlier calls, get the same answer from [fetch] and use the same
    [JSON.parse], they return the same value.  In particular the function
    itself never copies [api_token] or any other field into its result. *)
Theorem result_depends_on_answer_only
  (P1 P2 : Platform) (o1 o2 : Options) (log1 log2 : Log) :
  fetch P1 log1 (assessment_url o1) (assessment_init P1 o1)
  = fetch P2 log2 (assessment_url o2) (assessment_init P2 o2) ->
  (forall source : JsString, JSON_parse P1 source = JSON_parse P2 source) ->
  snd (assessRecaptchaToken P1 o1 log1) = snd (assessRecaptchaToken P2 o2 log2).
Proof.
  intros Hf Hp.
  unfold assessRecaptchaToken, try_catch, bind, await_fetch.
  rewrite Hf.
  destruct (fetch P2 log2 (assessment_url o2) (assessment_init P2 o2)) as [res|e];
    [|reflexivity].
  destruct (negb (ok res)); [reflexivity|].
  unfold await_text. destruct (text res) as [source|e]; [|reflexivity].
  destruct (negb (truthy source)); [reflexivity|].
  unfold call_JSON_parse. rewrite Hp.
  destruct (JSON_parse P2 source); reflexivity.
Qed.

Lemma result_depends_on_answer_only_witness :
  api_token Mock.opts <> api_token Mock.opts'
  /\ snd (assessRecaptchaToken Mock.forbidden Mock.opts [])
     = snd (assessRecaptchaToken Mock.forbidden Mock.opts'
              (fst (assessRecaptchaToken Mock.forbidden Mock.opts []))).
Proof.
  split; [discriminate|].
  apply (result_depends_on_answer_only Mock.forbidden Mock.forbidden
           Mock.opts Mock.opts'
           [] (fst (assessRecaptchaToken Mock.forbidden Mock.opts []))).
  - reflexivity.
  - intro source. reflexivity.
Defined.

(** ** The errors the function builds itself *)

Lemma ok_success_status (res : Response) :
  ok res = success_status (status res).
Proof.
  reflexivity.
Qed.

(** The result is an error object built by the function: what is left to
    show is its code and its message. *)
Ltac built_locally :=
  eexists; split; [reflexivity|];
  right; do 2 eexists;
  split; [reflexivity|]; split; [reflexivity|]; split; [|split].

(** X4. A result that was not parsed from the body of the response is
    [{ error: { code, message } }], a value of the declared type
    [RecaptchaAssessmentResponse].  Its code is 500 or the status of a
    response that is not a success, so it is never in 200..299.  Its message
    is empty in one case only: the transport raised an [Error] whose own
    message is empty. *)
Theorem local_errors (P : Platform) (o : Options) (log : Log) :
  exists v : JsValue,
    snd (assessRecaptchaToken P o log) = Normal v
    /\ ((exists (res : Response) (source : JsString),
           fetch P log (assessment_url o) (assessment_init P o) = Normal res
           /\ ok res = true
           /\ text res = Normal source
           /\ source <> []
           /\ JSON_parse P source = Normal v)
        \/ exists (code : number) (message : JsString),
             v = error_response code message
             /\ Shape.RecaptchaAssessmentResponse v = true
             /\ success_status code = false
             /\ (code = 500%float
                 \/ exists res : Response,
                      fetch P log (assessment_url o) (assessment_init P o) = Normal res
                      /\ code = status res)
             /\ (message <> []
                 \/ exists name : JsString,
                      transport_throws P o log (ErrorObject name []))).
Proof.
  assert (caught : forall e, transport_throws P o log e ->
            caught_message e <> []
            \/ exists name, transport_throws P o log (ErrorObject name [])).
  { intros [name [|c m] | w] H.
    - right. now exists name.
    - left. discriminate.
    - left. discriminate. }
  destruct (fetch P log (assessment_url o) (assessment_init P o))
    as [res|e] eqn:Hf.
  - destruct (ok res) eqn:Hok.
    + destruct (text res) as [source|e] eqn:Ht.
      * destruct source as [|c source'].
        -- rewrite (text_empty P o log res Hf Hok Ht).
           built_locally; [reflexivity | now left | left; discriminate].
        -- assert (Hne : c :: source' <> []) by discriminate.
           destruct (JSON_parse P (c :: source')) as [v|e] eqn:Hp.
           ++ rewrite (parse_returns P o log res _ v Hf Hok Ht Hne Hp).
              exists v. split; [reflexivity|]. left.
              exists res, (c :: source'). now repeat split.
           ++ rewrite (parse_throws P o log res _ e Hf Hok Ht Hne Hp).
              built_locally; [reflexivity | now left | left; discriminate].
      * rewrite (text_throws P o log res e Hf Hok Ht).
        built_locally; [reflexivity | now left |].
        apply caught. right. now exists res.
    + rewrite (status_not_ok P o log res Hf Hok).
      built_locally.
      * rewrite <- ok_success_status. exact Hok.
      * right. now exists res.
      * left. discriminate.
  - rewrite (fetch_throws P o log e Hf).
    built_locally; [reflexivity | now left |].
    apply caught. now left.
Qed.

(** ** The calls one invocation makes *)

(** X5. After the request, an invocation makes no call at all when [fetch]
    rejects or the status is not a success; otherwise it reads the body of
    that very response once, and calls [JSON.parse] once, on the text just
    read, only when that text is not empty.  Nothing else is ever called. *)
Theorem call_discipline (P : Platform) (o : Options) (log : Log) :
  exists later : Log,
    fst (assessRecaptchaToken P o log)
    = later ++ CallFetch (assessment_url o) (assessment_init P o) :: log
    /\ ((later = []
         /\ ((exists e, fetch P log (assessment_url o) (assessment_init P o) = Throw e)
             \/ exists res,
                  fetch P log (assessment_url o) (assessment_init P o) = Normal res
                  /\ ok res = false))
        \/ exists res : Response,
             fetch P log (assessment_url o) (assessment_init P o) = Normal res
             /\ ok res = true
             /\ ((later = [CallText res]
                  /\ ((exists e, text res = Throw e) \/ text res = Normal []))
                 \/ exists source : JsString,
                      text res = Normal source
                      /\ source <> []
                      /\ later = [CallParse source; CallText res])).
Proof.
  destruct (fetch P log (assessment_url o) (assessment_init P o))
    as [res|e] eqn:Hf.
  - destruct (ok res) eqn:Hok.
    + destruct (text res) as [source|e] eqn:Ht.
      * destruct source as [|c source'].
        -- rewrite (text_empty P o log res Hf Hok Ht). exists [CallText res].
           split; [reflexivity|]. right. exists res.
           split; [reflexivity|]. split; [exact Hok|].
           left. split; [reflexivity|]. now right.
        -- assert (Hne : c :: source' <> []) by discriminate.
           exists [CallParse (c :: source'); CallText res].
           split.
           ++ destruct (JSON_parse P (c :: source')) as [v|e] eqn:Hp.
              ** now rewrite (parse_returns P o log res _ v Hf Hok Ht Hne Hp).
              ** now rewrite (parse_throws P o log res _ e Hf Hok Ht Hne Hp).
           ++ right. exists res.
              split; [reflexivity|]. split; [exact Hok|].
              right. exists (c :: source').
              split; [exact Ht|]. split; [exact Hne|reflexivity].
      * rewrite (text_throws P o log res e Hf Hok Ht). exists [CallText res].
        split; [reflexivity|]. right. exists res.
        split; [reflexivity|]. split; [exact Hok|].
        left. split; [reflexivity|]. left. now exists e.
    + rewrite (status_not_ok P o log res Hf Hok). exists [].
      split; [reflexivity|]. left. split; [reflexivity|]. right. now exists res.
  - rewrite (fetch_throws P o log e Hf). exists [].
    split; [reflexivity|]. left. split; [reflexivity|]. left. now exists e.
Qed.

(** ** The documented guards, applied to the result *)

Lemma str_eqb_eq (a b : JsString) : str_eqb a b = true -> a = b.
Proof.
  revert b. induction a as [|x a IH]; intros [|y b] H; try discriminate.
  - reflexivity.
  - simpl in H. apply andb_true_iff in H. destruct H as [Hx Hab].
    apply N.eqb_eq in Hx. subst y. f_equal. now apply IH.
Qed.

(** A value of the error shape fails the guard without reaching the score. *)
Lemma error_shape_fails_guards (T : JsValue -> number) (v : JsValue) :
  Shape.error_shape v = true ->
  Usage.example_guard T v = Normal false /\ Usage.readme_guard T v = Normal false.
Proof.
  intro H.
  destruct v as [| | | | |[|[k inner] [|]]]; simpl in H; try discriminate H;
    destruct inner as [| | | | |[|[k1 [| |n| | |]] [|[k2 [| | |s| |]] [|]]]];
    try discriminate H.
  apply andb_true_iff in H. destruct H as [H _].
  apply andb_true_iff in H. destruct H as [H _].
  apply str_eqb_eq in H. subst k.
  split; reflexivity.
Qed.


(** X6. On every path where the function builds the result itself (the
    transport raised, the status was not a success, the body was empty or
    was not JSON), both documented guards evaluate to false: a failed
    assessment is never taken for a legitimate user.  A guard can hold only
    for a value parsed from the body of a success response. *)
Theorem guards_reject_local_errors
  (T : JsValue -> number) (P : Platform) (o : Options) (log : Log) :
  exists v : JsValue,
    snd (assessRecaptchaToken P o log) = Normal v
    /\ ((Usage.example_guard T v = Normal false
         /\ Usage.readme_guard T v = Normal false)
        \/ exists (res : Response) (source : JsString),
             fetch P log (assessment_url o) (assessment_init P o) = Normal res
             /\ ok res = true
             /\ text res = Normal source
             /\ source <> []
             /\ JSON_parse P source = Normal v).
Proof.
  destruct (assess_paths P o log) as (later & v & Hrun & _ & [Hv | Hv]).
  - exists v. rewrite Hrun. split; [reflexivity|].
    left. now apply error_shape_fails_guards.
  - exists v. rewrite Hrun. split; [reflexivity|]. now right.
Qed.


(** X8. The guard of the README and the guard of the [@example] agree on
    every value: leaving out [?? 0] changes nothing, because a missing or
    [null] score is not at least 0.5 either way. *)
Theorem readme_guard_is_example_guard (T : JsValue -> number) (v : JsValue) :
  Usage.readme_guard T v = Usage.example_guard T v.
Proof.
  unfold Usage.readme_guard, Usage.example_guard.
  destruct (Usage.member (lit "tokenProperties") v) as [tp|e]; [|reflexivity].
  destruct (Usage.ToBoolean (Usage.optional_member (lit "valid") tp)); [|reflexivity].
  destruct (Usage.member (lit "riskAnalysis") v) as [ra|e]; [|reflexivity].
  destruct (Usage.optional_member (lit "score") ra) as [[| | | | |]|]; reflexivity.
Qed.

(** ** Reading the request back *)

Lemma skip_app (prefix s : JsString) :
  JSONRead.skip prefix (prefix ++ s) = Some s.
Proof.
  induction prefix as [|p prefix IH]; [reflexivity|].
  cbn [app JSONRead.skip]. rewrite N.eqb_refl. exact IH.
Qed.

Lemma skip_app_both (a b s : JsString) :
  JSONRead.skip (a ++ b) (a ++ s) = JSONRead.skip b s.
Proof.
  induction a as [|p a IH]; [reflexivity|].
  cbn [app JSONRead.skip]. rewrite N.eqb_refl. exact IH.
Qed.

(** X9. The body can be read back: a reader that follows the layout
    [{"event":{"token":...,"siteKey":...,"expectedAction":...}}] and reads
    each value as a JSON string literal recovers exactly the [token],
    [siteKey] and [expectedAction] the function was given, whatever
    characters they hold. *)
Theorem body_reads_back (P : Platform) (o : Options) (log : Log) :
  exists (url : JsString) (init : RequestInit),
    Trace.requests (fst (assessRecaptchaToken P o log))
    = (url, init) :: Trace.requests log
    /\ JSONRead.read_event (body init)
       = Some (token o, siteKey o, expectedAction o).
Proof.
  exists (assessment_url o), (assessment_init P o).
  split; [apply requests_after|].
  unfold assessment_init. cbn [body]. rewrite payload_text.
  unfold JSONRead.read_event.
  rewrite !skip_app_both, skip_app, read_QuoteJSONString.
  rewrite !skip_app_both, skip_app, read_QuoteJSONString.
  rewrite !skip_app_both, skip_app, read_QuoteJSONString.
  reflexivity.
Qed.

(** ** The address *)

Lemma split_at_slash (x y r1 r2 : JsString) :
  Wire.no_slash x = true ->
  Wire.no_slash y = true ->
  x ++ 47%N :: r1 = y ++ 47%N :: r2 ->
  x = y /\ r1 = r2.
Proof.
  revert y. induction x as [|a x IH]; intros [|b y] Hx Hy H.
  - injection H as ->. now split.
  - injection H as <- _. discriminate Hy.
  - injection H as -> _. discriminate Hx.
  - injection H as -> H.
    cbn in Hx, Hy. apply andb_true_iff in Hx. apply andb_true_iff in Hy.
    destruct (IH y (proj2 Hx) (proj2 Hy) H) as [-> ->]. now split.
Qed.

(** X10. The address is built by plain interpolation, without
    percent-encoding.  As long as the project identifiers hold no solidus,
    two invocations that call the same address were given the same
    [projectId] and the same [api_token]. *)
Theorem address_determines_project_and_key
  (P1 P2 : Platform) (o1 o2 : Options) (log : Log) :
  Wire.no_slash (projectId o1) = true ->
  Wire.no_slash (projectId o2) = true ->
  map fst (Trace.requests (fst (assessRecaptchaToken P1 o1 log)))
  = map fst (Trace.requests (fst (assessRecaptchaToken P2 o2 log))) ->
  projectId o1 = projectId o2 /\ api_token o1 = api_token o2.
Proof.
  intros H1 H2. rewrite !requests_after. cbn [map fst].
  intro H0. assert (H := f_equal (hd []) H0). cbn [hd] in H.
  unfold assessment_url in H.
  apply app_inv_head in H.
  change (lit "/assessments?key=")
    with (47%N :: lit "assessments?key=") in H.
  cbn [app] in H.
  apply split_at_slash in H; try assumption.
  destruct H as [Hp H]. apply app_inv_head in H. now split.
Qed.

Lemma address_determines_project_and_key_witness :
  token Mock.opts <> token Crafted.other_token
  /\ projectId Mock.opts = projectId Crafted.other_token
  /\ api_token Mock.opts = api_token Crafted.other_token.
Proof.
  split; [discriminate|].
  apply (address_determines_project_and_key Mock.ok_assessment Mock.forbidden
           Mock.opts Crafted.other_token []); reflexivity.
Defined.

(** Without that condition the address is ambiguous: a project identifier
    holding a solidus gives the address of another project and key. *)
Example slashed_project_shares_address :
  assessment_url Crafted.plain_project = assessment_url Crafted.slashed_project
  /\ projectId Crafted.plain_project <> projectId Crafted.slashed_project
  /\ api_token Crafted.plain_project <> api_token Crafted.slashed_project.
Proof.
  split; [reflexivity|]. split; discriminate.
Qed.
